(** * go-odoo: the XML-RPC client of [odoo.go], [errors.go] and the
      configuration file, embedded as Rocq functions.

    Go values of static type [interface{}] are modelled by [Value], which
    keeps the dynamic type, because the program compares interface values
    ([uid != 0]) and asserts dynamic types ([uid.(int64)]).  The remote server
    and the [xmlrpc] library are an environment ([Transport]); every function
    that talks to it threads a [World] holding the calls dispatched so far.
    A run-time panic (failed type assertion, nil dereference) is an outcome of
    its own, distinct from a returned [error]. *)

From Stdlib Require Import ZArith List String Bool Lia.
Import ListNotations.

Local Open Scope string_scope.
Local Open Scope list_scope.

Set Warnings "-register-all".

(** ** Dynamically typed values *)

(** The slice types that reach an [interface{}] in this package. *)
Inductive SliceTy : Type :=
| TInterfaces   (* []interface{} *)
| TArgs         (* odoo.Args *)
| TDomain.      (* odoo.Domain *)

(** A Go value held in an [interface{}], tagged with its dynamic type.
    [int] and [int64] are different dynamic types; their payload is the
    mathematical integer (the package performs no arithmetic on them).
    A nil slice and an empty slice are both the empty list.  A map is the
    list of its entries; the package never looks inside one. *)
Inductive Value : Type :=
| VNil                                  (* the nil interface *)
| VInt (n : Z)                          (* int *)
| VInt64 (n : Z)                        (* int64 *)
| VBool (b : bool)                      (* bool *)
| VString (s : string)                  (* string *)
| VSlice (t : SliceTy) (l : list Value) (* []interface{}, Args, Domain *)
| VInt64s (l : list Z)                  (* []int64 *)
| VStrings (l : list string)            (* []string *)
| VMap (m : list (string * Value))      (* map[string]interface{} *)
| VOpaque (ty : string).                (* any other type: float64, time.Time, []byte *)

(** [type Args []interface{}] *)
Definition Args : Type := list Value.

(** [func (args *Args) Append(arg ...interface{})]: the receiver after the
    call. *)
Definition Append (args : Args) (arg : list Value) : Args := args ++ arg.

(** [type Domain []interface{}] *)
Definition Domain : Type := list Value.

Definition OpAND : string := "&".
Definition OpOR : string := "|".

(** [func Clause(field string, op string, values interface{}) interface{}] *)
Definition Clause (field op : string) (values : Value) : Value :=
  VSlice TInterfaces [VString field; VString op; values].

(** [func NewDomain(clauses ...interface{}) Domain]: the composite literal
    [Domain{clauses}] has ONE element, the variadic slice itself. *)
Definition NewDomain (clauses : list Value) : Domain :=
  [VSlice TInterfaces clauses].

(** [map[string]interface{}], the type of a context. *)
Definition Context : Type := list (string * Value).

(** ** Configuration and errors *)

Record ClientConfig : Type := mkConfig {
  Url : string;
  Db : string;
  Username : string;
  Password : string
}.

(** [func (config *ClientConfig) IsValid() bool] *)
Definition IsValid (config : ClientConfig) : bool :=
  negb (Url config =? "") && negb (Db config =? "")
  && negb (Username config =? "") && negb (Password config =? "").

(** The error values of the package; [TransportError] stands for whatever
    the [xmlrpc] library returns.  A Go [error] is [option Error], [None]
    being nil. *)
Inductive Error : Type :=
| ClientAuthError (config : ClientConfig)
| InvalidConfigError (config : ClientConfig)
| InvalidContextError
| TransportError (msg : string).

Definition is_nil {A : Type} (e : option A) : bool :=
  match e with None => true | Some _ => false end.

(** ** The transport and the world *)

(** [*xmlrpc.Client], identified by the address it was opened on. *)
Record xmlrpcClient : Type := mkHandle { addr : string }.

(** One [c.Call(method, args, &result)]. *)
Record RpcCall : Type := mkCall {
  via : xmlrpcClient;
  rpc_method : string;
  rpc_args : list Value
}.

(** What has happened on the wire: the calls dispatched, oldest first, and
    the handles closed. *)
Record World : Type := mkWorld {
  sent : list RpcCall;
  closed : list xmlrpcClient
}.

Definition quiet : World := mkWorld [] [].

(** The environment: [dial] is [xmlrpc.NewClient(url, nil)] (its error, if
    any), [respond] what [Call] leaves in [result] and returns as error,
    [hangup] the error of [Close].  Answers may depend on everything that
    happened before. *)
Record Transport : Type := mkTransport {
  dial : string -> option Error;
  respond : World -> RpcCall -> Value * option Error;
  hangup : World -> xmlrpcClient -> option Error
}.

(** ** Outcomes: normal return or panic *)

Inductive Fault : Type :=
| TypeAssertion     (* x.(T) on a value whose dynamic type is not T *)
| NilDereference.   (* method call through a nil pointer *)

Inductive Res (A : Type) : Type :=
| Ok (a : A) (w : World)
| Panic (f : Fault) (w : World).
Arguments Ok {A} a w.
Arguments Panic {A} f w.

Definition M (A : Type) : Type := World -> Res A.

Definition ret {A : Type} (a : A) : M A := fun w => Ok a w.

Definition bind {A B : Type} (m : M A) (k : A -> M B) : M B :=
  fun w => match m w with
           | Ok a w' => k a w'
           | Panic f w' => Panic f w'
           end.

Definition panic {A : Type} (f : Fault) : M A := fun w => Panic f w.

Notation "x <- m ;; k" := (bind m (fun x => k))
  (at level 61, m at next level, right associativity).
Notation "' p <- m ;; k" := (bind m (fun x => let 'p := x in k))
  (at level 61, p pattern, m at next level, right associativity).

(** The comparison [v == k] of an interface value with an untyped integer
    constant: the constant takes its default type [int], and interface
    values are equal only when their dynamic types are identical. *)
Definition iface_eq_const (v : Value) (k : Z) : bool :=
  match v with
  | VInt n => Z.eqb n k
  | _ => false
  end.

(** Type assertions [v.(int64)], [v.(bool)], [v.([]interface{})]. *)
Definition assert_int64 (v : Value) : M Z :=
  match v with VInt64 n => ret n | _ => panic TypeAssertion end.

Definition assert_bool (v : Value) : M bool :=
  match v with VBool b => ret b | _ => panic TypeAssertion end.

Definition assert_interfaces (v : Value) : M (list Value) :=
  match v with VSlice TInterfaces l => ret l | _ => panic TypeAssertion end.

(** ** The client *)

(** [type Client struct].  [cfg] is a pointer in the source; [NewClient],
    the package's only constructor, stores the pointer it has just
    dereferenced, so the record holds the configuration itself (a zero-value
    [Client] with a nil [cfg] is outside the model).  The two handles may be
    nil, as [Close] tests. *)
Record Client : Type := mkClient {
  cfg : ClientConfig;
  uid : Z;
  auth : bool;
  common : option xmlrpcClient;
  object : option xmlrpcClient
}.

Definition set_session (c : Client) (u : Z) (a : bool) : Client :=
  mkClient (cfg c) u a (common c) (object c).

(** [func (client *Client) isAuthenticated() bool] *)
Definition isAuthenticated (c : Client) : bool :=
  negb (Z.eqb (uid c) 0) && auth c.

(** [func (client *Client) getArgs() Args] *)
Definition getArgs (c : Client) : Args :=
  if isAuthenticated c
  then [VString (Db (cfg c)); VInt64 (uid c); VString (Password (cfg c))]
  else [VString (Db (cfg c)); VString (Username (cfg c));
        VString (Password (cfg c)); VString ""].

Section Remote.

Variable T : Transport.

(** [func (client *Client) call(c *xmlrpc.Client, method, args)].  The
    library's [Call] is taken to return its value and error; a panic raised
    inside the library (its encoder, on some argument values) is not
    modelled: the only panic here is the call through a nil handle. *)
Definition call (h : option xmlrpcClient) (method : string) (args : Args)
  : M (Value * option Error) :=
  fun w =>
    match h with
    | None => Panic NilDereference w
    | Some x =>
        let q := mkCall x method args in
        Ok (respond T w q) (mkWorld (sent w ++ [q]) (closed w))
    end.

Definition commonCall (c : Client) (method : string) (args : Args) :=
  call (common c) method args.

Definition objectCall (c : Client) (method : string) (args : Args) :=
  call (object c) method args.

(** [func (client *Client) Authenticate() error].  The [if] header declares
    a second [err] with [:=]; the assignment of the else branch is to that
    one ([inner] below), and the function returns the outer [err]. *)
Definition Authenticate (c : Client) : M (Client * option Error) :=
  let err : option Error := None in
  if negb (isAuthenticated c) then
    '(uid', inner) <- commonCall c "authenticate" (getArgs c) ;;
    if negb (iface_eq_const uid' 0) && is_nil inner then
      n <- assert_int64 uid' ;;
      ret (set_session c n true, err)
    else
      let inner := Some (ClientAuthError (cfg c)) in
      ret (c, err)
  else ret (c, err).

(** [c.Close()] of the library. *)
Definition xmlrpc_Close (h : xmlrpcClient) : M (option Error) :=
  fun w => Ok (hangup T w h) (mkWorld (sent w) (closed w ++ [h])).

(** [func (client *Client) Close() error] *)
Definition Close (c : Client) : M (Client * option Error) :=
  let c := set_session c 0%Z false in
  err <- match common c with
         | Some h => xmlrpc_Close h
         | None => ret None
         end ;;
  err <- (if is_nil err then
            match object c with
            | Some h => xmlrpc_Close h
            | None => ret err
            end
          else ret err) ;;
  ret (c, err).

(** [func (client *Client) ExecuteKw(method, model, args, context...)] *)
Definition ExecuteKw (c : Client) (method model : string) (args : Args)
  (context : list Context) : M (Value * option Error) :=
  let err : option Error := None in
  let result := VNil in
  let params := getArgs c in
  let params := Append params [VString model; VString method; VSlice TArgs args] in
  let '(params, err) :=
    match context with
    | [ctx] => (Append params [VMap ctx], err)
    | _ => if (1 <=? List.length context)%nat
           then (params, Some InvalidContextError)
           else (params, err)
    end in
  if is_nil err then
    if isAuthenticated c
    then objectCall c "execute_kw" params
    else ret (result, Some (ClientAuthError (cfg c)))
  else ret (result, err).

(** [func (client *Client) Read(model, ids, fields, context...)] *)
Definition Read (c : Client) (model : string) (ids : list Z)
  (fields : list string) (context : list Context) : M (Value * option Error) :=
  let args := [VInt64s ids] in
  let args := if negb (List.length fields =? 0)%nat
              then Append args [VStrings fields] else args in
  ExecuteKw c "read" model args context.

(** [func (client *Client) Create(model, values, context...)] *)
Definition Create (c : Client) (model : string) (values : Context)
  (context : list Context) : M (Z * option Error) :=
  '(response, err) <- ExecuteKw c "create" model [VMap values] context ;;
  if is_nil err
  then result <- assert_int64 response ;; ret (result, err)
  else ret (0%Z, err).

(** [func (client *Client) Write(model, ids, values, context...)] *)
Definition Write (c : Client) (model : string) (ids : list Z)
  (values : Context) (context : list Context) : M (bool * option Error) :=
  '(response, err) <- ExecuteKw c "write" model [VInt64s ids; VMap values] context ;;
  if is_nil err
  then result <- assert_bool response ;; ret (result, err)
  else ret (false, err).

(** [func (client *Client) Unlink(model, ids, context...)] *)
Definition Unlink (c : Client) (model : string) (ids : list Z)
  (context : list Context) : M (bool * option Error) :=
  '(response, err) <- ExecuteKw c "unlink" model [VInt64s ids] context ;;
  if is_nil err
  then result <- assert_bool response ;; ret (result, err)
  else ret (false, err).

(** The loop [for i, r := range response.([]interface{}) { result[i] = r.(int64) }]:
    the elements are asserted left to right and the first failure panics. *)
Fixpoint coerce_ids (rs : list Value) : M (list Z) :=
  match rs with
  | [] => ret []
  | r :: rs' =>
      n <- assert_int64 r ;;
      ns <- coerce_ids rs' ;;
      ret (n :: ns)
  end.

(** The loop [for _, clause := range domain { args.Append(clause) }]. *)
Definition domain_args (domain : Domain) : Args :=
  fold_left (fun args clause => Append args [clause]) domain [].

(** [func (client *Client) Search(model, domain, context...)].  The result
    is a [[]int64]: [None] is the nil slice the function starts from. *)
Definition Search (c : Client) (model : string) (domain : Domain)
  (context : list Context) : M (option (list Z) * option Error) :=
  let args := domain_args domain in
  '(response, err) <- ExecuteKw c "search" model args context ;;
  if is_nil err then
    rs <- assert_interfaces response ;;
    result <- coerce_ids rs ;;
    ret (Some result, err)
  else ret (None, err).

(** [func (client *Client) SearchRead(model, domain, fields, context...)] *)
Definition SearchRead (c : Client) (model : string) (domain : Domain)
  (fields : list string) (context : list Context) : M (Value * option Error) :=
  let args := [VSlice TDomain domain] in
  let args := if negb (List.length fields =? 0)%nat
              then Append args [VStrings fields] else args in
  ExecuteKw c "search_read" model args context.

(** [func (client *Client) SearchCount(model, domain, context...)] *)
Definition SearchCount (c : Client) (model : string) (domain : Domain)
  (context : list Context) : M (Z * option Error) :=
  '(response, err) <- ExecuteKw c "search_count" model [VSlice TDomain domain] context ;;
  if is_nil err
  then result <- assert_int64 response ;; ret (result, err)
  else ret (0%Z, err).

(** [xmlrpc.NewClient(url, nil)]: the handle, or nil and the error. *)
Definition xmlrpc_NewClient (url : string) : option xmlrpcClient * option Error :=
  match dial T url with
  | None => (Some (mkHandle url), None)
  | Some e => (None, Some e)
  end.

(** [func NewClient(config *ClientConfig)], returning the client (nil as
    [None]) and the error. *)
Definition NewClient (config : ClientConfig) : M (option Client * option Error) :=
  if IsValid config then
    let '(common, err) := xmlrpc_NewClient (Url config ++ "/xmlrpc/2/common") in
    let '(object, err) :=
      if is_nil err
      then xmlrpc_NewClient (Url config ++ "/xmlrpc/2/object")
      else (None, err) in
    if is_nil err then
      let client := mkClient config 0%Z false common object in
      '(client, err) <- Authenticate client ;;
      if negb (is_nil err) then ret (None, err) else ret (Some client, err)
    else ret (None, err)
  else ret (None, Some (InvalidConfigError config)).

End Remote.

(** ** Reachable client states *)

(** The states a caller can bring a client into with [NewClient],
    [Authenticate] and [Close] against a transport [T].  [ExecuteKw] and the
    typed wrappers only read the client, so they add no state; a call that
    panics leaves the client as it was (the assertion of [Authenticate]
    comes before its two assignments). *)
Inductive Reachable (T : Transport) : Client -> Prop :=
| reach_new : forall config w c e w',
    NewClient T config w = Ok (Some c, e) w' -> Reachable T c
| reach_authenticate : forall c w c' e w',
    Reachable T c -> Authenticate T c w = Ok (c', e) w' -> Reachable T c'
| reach_close : forall c w c' e w',
    Reachable T c -> Close T c w = Ok (c', e) w' -> Reachable T c'.

(** ** Concrete configurations and transports *)

(** The configuration of [odoo_test.go]. *)
Definition test_config : ClientConfig :=
  mkConfig "http://localhost:8069" "test" "admin" "admin".

Definition test_common : xmlrpcClient :=
  mkHandle "http://localhost:8069/xmlrpc/2/common".

Definition test_object : xmlrpcClient :=
  mkHandle "http://localhost:8069/xmlrpc/2/object".

(** The client literal of [NewClient], before authentication. *)
Definition fresh_client : Client :=
  mkClient test_config 0%Z false (Some test_common) (Some test_object).

(** The same client with a session for user 2. *)
Definition logged_client : Client := set_session fresh_client 2%Z true.

(** A server that answers every call with [v] and error [e]; both endpoints
    open, and closing reports [bye]. *)
Definition answering (v : Value) (e : option Error) (bye : option Error)
  : Transport :=
  mkTransport (fun _ => None) (fun _ _ => (v, e)) (fun _ _ => bye).

(** No server listening: every call fails in the transport. *)
Definition unreachable : Transport :=
  answering VNil (Some (TransportError "connection refused")) None.

(** A server whose [authenticate] returns the [int64] zero. *)
Definition zero_uid_server : Transport := answering (VInt64 0) None None.

(** A server that rejects the credentials the way Odoo does, with [false]. *)
Definition rejecting_server : Transport := answering (VBool false) None None.

(** A server that answers [authenticate] (on the common endpoint) with the
    user id 2 and every other call with the ids 7, 8, 9. *)
Definition seeded_server : Transport :=
  mkTransport (fun _ => None)
    (fun _ q =>
       if rpc_method q =? "authenticate"
       then (VInt64 2, None)
       else (VSlice TInterfaces [VInt64 7; VInt64 8; VInt64 9], None))
    (fun _ _ => None).

(** The world after one call [q] in a world [w]. *)
Definition after_call (w : World) (q : RpcCall) : World :=
  mkWorld (sent w ++ [q]) (closed w).

(** The [authenticate] call a fresh client sends. *)
Definition test_login : RpcCall :=
  mkCall test_common "authenticate"
    [VString "test"; VString "admin"; VString "admin"; VString ""].

(** The [search] call of [odoo_test.go], on a session for user 2. *)
Definition test_search : RpcCall :=
  mkCall test_object "execute_kw"
    [VString "test"; VInt64 2; VString "admin"; VString "res.users";
     VString "search";
     VSlice TArgs [VSlice TInterfaces [Clause "active" "=" (VInt 1)]]].

(** The world an outcome leaves behind, returned or panicked. *)
Definition outcome_world {A : Type} (r : Res A) : World :=
  match r with
  | Ok _ w => w
  | Panic _ w => w
  end.

(** A library that can open the common endpoint but not the object one. *)
Definition half_open : Transport :=
  mkTransport
    (fun url => if url =? "http://localhost:8069/xmlrpc/2/object"
                then Some (TransportError "invalid url") else None)
    (fun _ _ => (VInt64 2, None))
    (fun _ _ => None).

(** A server whose handles report an error when closed. *)
Definition sticky_server : Transport :=
  answering (VInt64 2) None (Some (TransportError "connection is shut down")).

(** The positional arguments of [execute_kw] for a session of user 2. *)
Definition test_execute_kw (method : string) (args : Args) : RpcCall :=
  mkCall test_object "execute_kw"
    [VString "test"; VInt64 2; VString "admin"; VString "res.users";
     VString method; VSlice TArgs args].

(** * Properties *)

(** ** The monad *)

Lemma bind_ret {A B : Type} (a : A) (k : A -> M B) (w : World) :
  bind (ret a) k w = k a w.
Proof. reflexivity. Qed.

Lemma bind_ok {A B : Type} (m : M A) (k : A -> M B) (w w' : World) (a : A) :
  m w = Ok a w' -> bind m k w = k a w'.
Proof. unfold bind; intros ->; reflexivity. Qed.

Lemma bind_panic {A B : Type} (m : M A) (k : A -> M B) (w w' : World) (f : Fault) :
  m w = Panic f w' -> bind m k w = Panic f w'.
Proof. unfold bind; intros ->; reflexivity. Qed.

(** ** Session state *)

Lemma isAuthenticated_spec (c : Client) :
  isAuthenticated c = true <-> uid c <> 0%Z /\ auth c = true.
Proof.
  unfold isAuthenticated.
  rewrite andb_true_iff, negb_true_iff, Z.eqb_neq.
  reflexivity.
Qed.

Lemma isAuthenticated_set_session (c : Client) (u : Z) (a : bool) :
  isAuthenticated (set_session c u a) = negb (Z.eqb u 0) && a.
Proof. reflexivity. Qed.

Lemma closed_session_unauthenticated (c : Client) :
  isAuthenticated (set_session c 0%Z false) = false.
Proof. reflexivity. Qed.

(** ** Domain builder *)

Lemma domain_args_id_from (d : Domain) (acc : Args) :
  fold_left (fun args clause => Append args [clause]) d acc = acc ++ d.
Proof.
  revert acc; induction d as [|x d IH]; intros acc; simpl.
  - now rewrite app_nil_r.
  - rewrite IH. unfold Append. now rewrite <- app_assoc.
Qed.

(** The loop of [Search] copies the domain element by element. *)
Lemma domain_args_id (d : Domain) : domain_args d = d.
Proof. unfold domain_args. now rewrite domain_args_id_from. Qed.

(** C3 (the code departs from the claim): for the three expressions of the
    package's own example, [NewDomain] does not return the single-level
    sequence of those expressions: what it returns has length 1, not 3, and
    its first element is not the first expression.  The doc comment of
    [NewDomain] promises a list of clauses, and [SearchRead] and
    [SearchCount] pass the Domain on as such a list. *)
Lemma NewDomain_not_flat :
  let es := [VString OpOR; Clause "active" "=" (VInt 1);
             Clause "login" "=" (VString "John")] in
  NewDomain es <> es
  /\ List.length (NewDomain es) <> List.length es
  /\ nth_error (NewDomain es) 0 <> nth_error es 0.
Proof.
  cbn. repeat split; intro H; discriminate H.
Qed.

(** What the composite literal [Domain{clauses}] builds, for every list of
    expressions: a Domain of length 1 whose only element is the
    [[]interface{}] holding the expressions, which the loop of [Search]
    copies as it is. *)
Theorem NewDomain_wraps (es : list Value) :
  List.length (NewDomain es) = 1%nat
  /\ nth_error (NewDomain es) 0 = Some (VSlice TInterfaces es)
  /\ (forall i, (0 < i)%nat -> nth_error (NewDomain es) i = None)
  /\ domain_args (NewDomain es) = [VSlice TInterfaces es].
Proof.
  repeat split.
  - intros [|i] Hi; [lia | now destruct i].
Qed.

(** ** Argument assembler *)

(** C4: the credential prefix is exactly {db, username, password, ""}
    (4 elements, in that order) when the session is unauthenticated, and
    exactly {db, uid, password} (3 elements, in that order) when it is
    authenticated. *)
Theorem getArgs_prefix (c : Client) :
  (isAuthenticated c = false ->
     getArgs c = [VString (Db (cfg c)); VString (Username (cfg c));
                  VString (Password (cfg c)); VString ""]
     /\ List.length (getArgs c) = 4%nat)
  /\ (isAuthenticated c = true ->
     getArgs c = [VString (Db (cfg c)); VInt64 (uid c);
                  VString (Password (cfg c))]
     /\ List.length (getArgs c) = 3%nat).
Proof.
  unfold getArgs; split; intros ->; split; reflexivity.
Qed.

Lemma getArgs_prefix_witness :
  getArgs fresh_client
    = [VString "test"; VString "admin"; VString "admin"; VString ""]
  /\ getArgs logged_client = [VString "test"; VInt64 2; VString "admin"].
Proof.
  split.
  - apply (proj1 (getArgs_prefix fresh_client)). reflexivity.
  - apply (proj2 (getArgs_prefix logged_client)). reflexivity.
Defined.

Section Dispatch.

Variable T : Transport.

(** ** Generic dispatch *)

(** With two or more contexts the error is set before the session is
    looked at. *)
Lemma ExecuteKw_many_contexts (c : Client) (method model : string)
  (args : Args) (x y : Context) (rest : list Context) (w : World) :
  ExecuteKw T c method model args (x :: y :: rest) w
  = Ok (VNil, Some InvalidContextError) w.
Proof. reflexivity. Qed.

Lemma ExecuteKw_no_session (c : Client) (method model : string)
  (args : Args) (context : list Context) (w : World) :
  isAuthenticated c = false -> (List.length context <= 1)%nat ->
  ExecuteKw T c method model args context w
  = Ok (VNil, Some (ClientAuthError (cfg c))) w.
Proof.
  intros Hc Hn. unfold ExecuteKw.
  destruct context as [|x [|y rest]]; simpl in *; try lia;
    rewrite Hc; reflexivity.
Qed.

(** [Close] returns, whatever the handles answer, and what it returns is
    the client with the session reset. *)
Lemma Close_returns (c : Client) (w : World) :
  exists e w', Close T c w = Ok (set_session c 0%Z false, e) w'.
Proof.
  unfold Close, bind, xmlrpc_Close, ret; simpl.
  destruct (common c) as [h|]; simpl.
  - destruct (hangup T w h) as [e|]; simpl.
    + eauto.
    + destruct (object c) as [h'|]; simpl; eauto.
  - destruct (object c) as [h'|]; simpl; eauto.
Qed.

Lemma Close_inv (c c' : Client) (e : option Error) (w w' : World) :
  Close T c w = Ok (c', e) w' -> c' = set_session c 0%Z false.
Proof.
  destruct (Close_returns c w) as (e0 & w0 & H).
  rewrite H. intros [= <- _ _]. reflexivity.
Qed.

(** [Close] dispatches nothing. *)
Lemma Close_sent (c c' : Client) (e : option Error) (w w' : World) :
  Close T c w = Ok (c', e) w' -> sent w' = sent w.
Proof.
  unfold Close, bind, xmlrpc_Close, ret; simpl.
  destruct (common c) as [h|]; simpl.
  - destruct (hangup T w h) as [e0|]; simpl.
    + intros [= _ _ <-]. reflexivity.
    + destruct (object c) as [h'|]; simpl; intros [= _ _ <-]; reflexivity.
  - destruct (object c) as [h'|]; simpl; intros [= _ _ <-]; reflexivity.
Qed.

(** C5: on a client that is not authenticated, be it one that never was or
    one on which [Close] has been called, [ExecuteKw] with at most one
    context returns a nil result and the authentication error, and the world
    is the one it started in: nothing was dispatched. *)
Theorem ExecuteKw_unauthenticated (c : Client) (method model : string)
  (args : Args) (context : list Context) (w : World) :
  (List.length context <= 1)%nat ->
  isAuthenticated c = false
  \/ (exists c0 w0 e, Close T c0 w0 = Ok (c, e) w) ->
  ExecuteKw T c method model args context w
  = Ok (VNil, Some (ClientAuthError (cfg c))) w.
Proof.
  intros Hn [Hc | (c0 & w0 & e & Hclose)].
  - now apply ExecuteKw_no_session.
  - apply ExecuteKw_no_session; [|exact Hn].
    rewrite (Close_inv _ _ _ _ _ Hclose).
    apply closed_session_unauthenticated.
Qed.

(** C6: with two or more context maps [ExecuteKw] returns the
    invalid-context error and a nil result, whatever the authentication
    state, and the world is unchanged: nothing was dispatched. *)
Theorem ExecuteKw_rejects_contexts (c : Client) (method model : string)
  (args : Args) (context : list Context) (w : World) :
  (2 <= List.length context)%nat ->
  ExecuteKw T c method model args context w
  = Ok (VNil, Some InvalidContextError) w.
Proof.
  destruct context as [|x [|y rest]]; simpl; try lia.
  intros _. apply ExecuteKw_many_contexts.
Qed.

(** ** Authentication *)

Lemma Authenticate_noop (c : Client) (w : World) :
  isAuthenticated c = true -> Authenticate T c w = Ok (c, None) w.
Proof. unfold Authenticate; intros ->; reflexivity. Qed.

(** A non-zero [int64] answer opens the session, with one remote call. *)
Lemma Authenticate_success (c : Client) (w : World) (h : xmlrpcClient) (n : Z) :
  isAuthenticated c = false -> common c = Some h -> n <> 0%Z ->
  respond T w (mkCall h "authenticate" (getArgs c)) = (VInt64 n, None) ->
  Authenticate T c w
  = Ok (set_session c n true, None)
       (after_call w (mkCall h "authenticate" (getArgs c)))
  /\ isAuthenticated (set_session c n true) = true.
Proof.
  intros Hc Hh Hn Hr. split.
  - unfold Authenticate, commonCall, call, bind. rewrite Hc, Hh; simpl.
    rewrite Hr; reflexivity.
  - rewrite isAuthenticated_set_session.
    apply Z.eqb_neq in Hn. now rewrite Hn.
Qed.

(** C7: on a client that is already authenticated [Authenticate] returns
    nil, leaves the client (uid and auth flag included) as it is and the
    world as it is, so no remote call is issued; two calls in a row change
    nothing either. *)
Theorem Authenticate_idempotent (c : Client) (w : World) :
  isAuthenticated c = true ->
  Authenticate T c w = Ok (c, None) w
  /\ (r <- Authenticate T c ;; Authenticate T (fst r)) w = Ok (c, None) w.
Proof.
  intros Hc. split.
  - now apply Authenticate_noop.
  - rewrite (bind_ok _ _ _ _ _ (Authenticate_noop c w Hc)); simpl.
    now apply Authenticate_noop.
Qed.

(** C9: [Close] returns for every client and every world, whatever the two
    handles report, and the client it leaves has uid 0 and auth false, hence
    is unauthenticated. *)
Theorem Close_resets (c : Client) (w : World) :
  exists c' e w',
    Close T c w = Ok (c', e) w'
    /\ uid c' = 0%Z /\ auth c' = false /\ isAuthenticated c' = false.
Proof.
  destruct (Close_returns c w) as (e & w' & H).
  exists (set_session c 0%Z false), e, w'. now rewrite H.
Qed.

End Dispatch.

(** ** Witnesses for the dispatch properties *)

Lemma ExecuteKw_unauthenticated_witness :
  ExecuteKw unreachable fresh_client "read" "res.users" [VInt64s [1%Z]] [] quiet
  = Ok (VNil, Some (ClientAuthError test_config)) quiet.
Proof.
  apply (ExecuteKw_unauthenticated unreachable fresh_client).
  - simpl; lia.
  - left; reflexivity.
Defined.

Lemma ExecuteKw_rejects_contexts_witness :
  ExecuteKw seeded_server logged_client "read" "res.users" [VInt64s [1%Z]]
    [[("lang", VString "en_US")]; [("tz", VString "UTC")]] quiet
  = Ok (VNil, Some InvalidContextError) quiet.
Proof.
  apply (ExecuteKw_rejects_contexts seeded_server logged_client).
  simpl; lia.
Defined.

Lemma Authenticate_idempotent_witness :
  Authenticate seeded_server logged_client (after_call quiet test_login)
  = Ok (logged_client, None) (after_call quiet test_login)
  /\ (r <- Authenticate seeded_server logged_client ;;
      Authenticate seeded_server (fst r)) (after_call quiet test_login)
     = Ok (logged_client, None) (after_call quiet test_login).
Proof.
  apply (Authenticate_idempotent seeded_server logged_client).
  reflexivity.
Defined.

(** ** Typed wrappers: the coercion of [Search] *)

Lemma coerce_ids_int64 (ids : list Z) (w : World) :
  coerce_ids (map VInt64 ids) w = Ok ids w.
Proof.
  induction ids as [|n ids IH]; simpl.
  - reflexivity.
  - unfold bind at 1; simpl. unfold bind at 1. now rewrite IH.
Qed.

Lemma coerce_ids_stranger (rs : list Value) (w : World) :
  (exists v, In v rs /\ forall n, v <> VInt64 n) ->
  coerce_ids rs w = Panic TypeAssertion w.
Proof.
  induction rs as [|r rs IH]; intros (v & Hin & Hv).
  - destruct Hin.
  - simpl. destruct r as [ | | n | | | | | | | ]; try reflexivity.
    destruct Hin as [<- | Hin].
    + now destruct (Hv n).
    + unfold bind at 1; simpl. unfold bind at 1.
      rewrite IH; [reflexivity | now exists v].
Qed.

Lemma nth_error_map_int64 (ids : list Z) (i : nat) :
  nth_error (map VInt64 ids) i = option_map VInt64 (nth_error ids i).
Proof. apply nth_error_map. Qed.

Section Wrappers.

Variable T : Transport.

(** An authenticated client with at most one context dispatches exactly one
    [execute_kw] call on the object endpoint and returns its answer as is. *)
Lemma ExecuteKw_dispatch (c : Client) (method model : string) (args : Args)
  (context : list Context) (w : World) (h : xmlrpcClient) :
  isAuthenticated c = true -> object c = Some h ->
  (List.length context <= 1)%nat ->
  let q := mkCall h "execute_kw"
             (getArgs c ++ [VString model; VString method; VSlice TArgs args]
                ++ map VMap context) in
  ExecuteKw T c method model args context w = Ok (respond T w q) (after_call w q).
Proof.
  intros Hc Hh Hn q. subst q. unfold ExecuteKw, objectCall, call, Append.
  destruct context as [|x [|y rest]]; simpl in *; try lia;
    rewrite Hc, Hh; simpl; rewrite ?app_nil_r, <- ?app_assoc; reflexivity.
Qed.

(** C8: for an authenticated client whose [search] call succeeds with the
    decoded response [resp]: if [resp] is a [[]interface{}] of [int64]s,
    [Search] returns exactly those integers, same length and same order,
    and a nil error; if [resp] is not a [[]interface{}], or one of its
    elements is not an [int64], [Search] does not return: it panics on the
    type assertion. *)
Theorem Search_coercion (c : Client) (model : string) (domain : Domain)
  (context : list Context) (w w' : World) (resp : Value) :
  isAuthenticated c = true ->
  ExecuteKw T c "search" model (domain_args domain) context w
    = Ok (resp, None) w' ->
  (forall ids, resp = VSlice TInterfaces (map VInt64 ids) ->
     Search T c model domain context w = Ok (Some ids, None) w'
     /\ List.length ids = List.length (map VInt64 ids)
     /\ forall i, nth_error (map VInt64 ids) i
                  = option_map VInt64 (nth_error ids i))
  /\ ((forall l, resp <> VSlice TInterfaces l) ->
      Search T c model domain context w = Panic TypeAssertion w')
  /\ (forall l, resp = VSlice TInterfaces l ->
      (exists v, In v l /\ forall n, v <> VInt64 n) ->
      Search T c model domain context w = Panic TypeAssertion w').
Proof.
  intros _ Hkw. unfold Search.
  rewrite (bind_ok _ _ _ _ _ Hkw); simpl.
  split; [|split].
  - intros ids ->. split; [|split].
    + unfold bind at 1; simpl. unfold bind at 1.
      now rewrite coerce_ids_int64.
    + now rewrite length_map.
    + intros i. apply nth_error_map_int64.
  - intros Hno.
    destruct resp as [ | | | | | t l | | | | ]; try reflexivity.
    destruct t; try reflexivity. now destruct (Hno l).
  - intros l -> Hbad.
    unfold bind at 1; simpl. unfold bind at 1.
    now rewrite (coerce_ids_stranger l w' Hbad).
Qed.

End Wrappers.

Lemma Search_coercion_witness :
  Search seeded_server logged_client "res.users"
    (NewDomain [Clause "active" "=" (VInt 1)]) [] quiet
  = Ok (Some [7; 8; 9]%Z, None) (after_call quiet test_search).
Proof.
  refine (proj1 (proj1 (Search_coercion seeded_server logged_client "res.users"
            (NewDomain [Clause "active" "=" (VInt 1)]) [] quiet
            (after_call quiet test_search)
            (VSlice TInterfaces [VInt64 7; VInt64 8; VInt64 9])
            _ _) [7; 8; 9]%Z _)); reflexivity.
Defined.

(** A response that is a sequence with one string among the ids. *)
Example Search_panics_on_string :
  Search (answering (VSlice TInterfaces [VInt64 7; VString "8"]) None None)
    logged_client "res.users" (NewDomain []) [] quiet
  = Panic TypeAssertion
      (after_call quiet
         (mkCall test_object "execute_kw"
            [VString "test"; VInt64 2; VString "admin"; VString "res.users";
             VString "search"; VSlice TArgs [VSlice TInterfaces []]])).
Proof. reflexivity. Qed.

(** ** Where the authentication path departs from its documentation *)

Section Swallowed.

Variable T : Transport.

(** Whatever the server answers, the error [Authenticate] returns is nil:
    the only assignment of an error is to the variable declared in the
    [if] header. *)
Lemma Authenticate_error_nil (c c' : Client) (e : option Error) (w w' : World) :
  Authenticate T c w = Ok (c', e) w' -> e = None.
Proof.
  unfold Authenticate, commonCall, call, bind.
  destruct (isAuthenticated c); simpl.
  - now intros [= _ <- _].
  - destruct (common c) as [h|]; [|discriminate].
    destruct (respond T w _) as [v inner].
    destruct (negb (iface_eq_const v 0) && is_nil inner).
    + destruct v; simpl; try discriminate. now intros [= _ <- _].
    + now intros [= _ <- _].
Qed.

(** A transport error leaves the client as it was and is not reported. *)
Lemma Authenticate_transport_error (c : Client) (w : World) (h : xmlrpcClient)
  (v : Value) (e : Error) :
  isAuthenticated c = false -> common c = Some h ->
  respond T w (mkCall h "authenticate" (getArgs c)) = (v, Some e) ->
  Authenticate T c w
  = Ok (c, None) (after_call w (mkCall h "authenticate" (getArgs c))).
Proof.
  intros Hc Hh Hr.
  unfold Authenticate, commonCall, call, bind. rewrite Hc, Hh; simpl.
  rewrite Hr; simpl. rewrite andb_false_r. reflexivity.
Qed.

(** An [int64] zero passes the test [uid != 0], whose right-hand side is the
    [int] zero: the flag is raised over a zero uid. *)
Lemma Authenticate_zero_uid (c : Client) (w : World) (h : xmlrpcClient) :
  isAuthenticated c = false -> common c = Some h ->
  respond T w (mkCall h "authenticate" (getArgs c)) = (VInt64 0, None) ->
  Authenticate T c w
  = Ok (set_session c 0%Z true, None)
       (after_call w (mkCall h "authenticate" (getArgs c))).
Proof.
  intros Hc Hh Hr.
  unfold Authenticate, commonCall, call, bind. rewrite Hc, Hh; simpl.
  rewrite Hr; reflexivity.
Qed.

(** The stages of [NewClient] that do fail as documented. *)
Lemma NewClient_invalid_config (config : ClientConfig) (w : World) :
  IsValid config = false ->
  NewClient T config w = Ok (None, Some (InvalidConfigError config)) w.
Proof. unfold NewClient; intros ->; reflexivity. Qed.

Lemma NewClient_dial_error (config : ClientConfig) (w : World) :
  IsValid config = true ->
  dial T (Url config ++ "/xmlrpc/2/common") <> None
  \/ dial T (Url config ++ "/xmlrpc/2/object") <> None ->
  exists e, NewClient T config w = Ok (None, Some e) w.
Proof.
  intros Hv Hd. unfold NewClient, xmlrpc_NewClient. rewrite Hv.
  destruct (dial T (Url config ++ "/xmlrpc/2/common")) as [e1|]; simpl.
  - now exists e1.
  - destruct (dial T (Url config ++ "/xmlrpc/2/object")) as [e2|]; simpl.
    + now exists e2.
    + destruct Hd as [Hd | Hd]; now destruct Hd.
Qed.

End Swallowed.

(** C1 (the code departs from the claim): [Authenticate] never returns a
    non-nil error.  Against a server that cannot be reached it returns nil
    and leaves the client unauthenticated; against a server that answers
    the [int64] zero it returns nil and stores uid 0 with the flag raised;
    against a server that answers [false] it panics. *)
Theorem Authenticate_reports_nothing :
  (forall T c w, match Authenticate T c w with
                 | Ok (_, e) _ => e = None
                 | Panic _ _ => True
                 end)
  /\ Authenticate unreachable fresh_client quiet
     = Ok (fresh_client, None) (after_call quiet test_login)
  /\ Authenticate zero_uid_server fresh_client quiet
     = Ok (set_session fresh_client 0%Z true, None) (after_call quiet test_login)
  /\ Authenticate rejecting_server fresh_client quiet
     = Panic TypeAssertion (after_call quiet test_login).
Proof.
  split; [|repeat split].
  intros T c w.
  destruct (Authenticate T c w) as [[c' e] w'|f w'] eqn:H; [|exact I].
  exact (Authenticate_error_nil T c c' e w w' H).
Qed.

(** C2 (the code departs from the claim): with a valid configuration and
    both endpoints open, a failed first authentication makes [NewClient]
    return a non-nil client and a nil error, and that client is not
    authenticated. *)
Theorem NewClient_returns_unauthenticated :
  IsValid test_config = true
  /\ NewClient unreachable test_config quiet
     = Ok (Some fresh_client, None) (after_call quiet test_login)
  /\ isAuthenticated fresh_client = false.
Proof. repeat split. Qed.

(** C10 (the code departs from the claim): against a server whose
    [authenticate] answers the [int64] zero, [NewClient] returns a client
    whose auth flag is true and whose uid is 0. *)
Theorem flag_without_uid :
  NewClient zero_uid_server test_config quiet
  = Ok (Some (set_session fresh_client 0%Z true), None)
       (after_call quiet test_login)
  /\ exists c, Reachable zero_uid_server c /\ auth c = true /\ uid c = 0%Z.
Proof.
  assert (H : NewClient zero_uid_server test_config quiet
              = Ok (Some (set_session fresh_client 0%Z true), None)
                   (after_call quiet test_login)) by reflexivity.
  split; [exact H|].
  exists (set_session fresh_client 0%Z true). split; [|split; reflexivity].
  exact (reach_new _ _ _ _ _ _ H).
Qed.

(** * Further properties of the package *)

(** ** Construction *)

Lemma IsValid_false_iff (config : ClientConfig) :
  IsValid config = false
  <-> Url config = "" \/ Db config = "" \/ Username config = ""
      \/ Password config = "".
Proof.
  unfold IsValid.
  rewrite !andb_false_iff, !negb_false_iff, !String.eqb_eq. tauto.
Qed.

(** X1: a configuration with an empty field is refused: nil client,
    [InvalidConfigError] carrying that configuration, and the world is the
    one [NewClient] started in, so no call was sent and no handle closed. *)
Theorem NewClient_rejects_empty_field (T : Transport) (config : ClientConfig)
  (w : World) :
  Url config = "" \/ Db config = "" \/ Username config = ""
  \/ Password config = "" ->
  NewClient T config w = Ok (None, Some (InvalidConfigError config)) w.
Proof.
  intros H. apply NewClient_invalid_config. now apply IsValid_false_iff.
Qed.

Lemma NewClient_rejects_empty_field_witness :
  NewClient seeded_server (mkConfig "http://localhost:8069" "test" "admin" "") quiet
  = Ok (None, Some (InvalidConfigError
                      (mkConfig "http://localhost:8069" "test" "admin" "")))
       quiet.
Proof.
  apply (NewClient_rejects_empty_field seeded_server).
  right; right; right; reflexivity.
Defined.

(** X2: when the library cannot open the common endpoint, or opens it but
    not the object endpoint, [NewClient] returns a nil client and the
    library's error as it is, and no call is sent. *)
Theorem NewClient_dial_failure (T : Transport) (config : ClientConfig)
  (w : World) (e : Error) :
  IsValid config = true ->
  dial T (Url config ++ "/xmlrpc/2/common") = Some e
  \/ (dial T (Url config ++ "/xmlrpc/2/common") = None
      /\ dial T (Url config ++ "/xmlrpc/2/object") = Some e) ->
  NewClient T config w = Ok (None, Some e) w.
Proof.
  intros Hv Hd. unfold NewClient, xmlrpc_NewClient. rewrite Hv.
  destruct Hd as [-> | [-> ->]]; reflexivity.
Qed.

Lemma NewClient_dial_failure_witness :
  NewClient half_open test_config quiet
  = Ok (None, Some (TransportError "invalid url")) quiet.
Proof.
  apply (NewClient_dial_failure half_open test_config).
  - reflexivity.
  - right; split; reflexivity.
Defined.

(** X3: with a valid configuration, both endpoints open and a non-zero
    [int64] answer n to the one [authenticate] call, sent on the common
    endpoint with {db, username, password, ""}, [NewClient] returns a nil
    error and a client holding that configuration, uid n, the flag raised
    and the handles of [Url/xmlrpc/2/common] and [Url/xmlrpc/2/object]. *)
Theorem NewClient_opens_session (T : Transport) (config : ClientConfig)
  (w : World) (n : Z) :
  IsValid config = true ->
  dial T (Url config ++ "/xmlrpc/2/common") = None ->
  dial T (Url config ++ "/xmlrpc/2/object") = None ->
  n <> 0%Z ->
  let login := mkCall (mkHandle (Url config ++ "/xmlrpc/2/common"))
                 "authenticate"
                 [VString (Db config); VString (Username config);
                  VString (Password config); VString ""] in
  respond T w login = (VInt64 n, None) ->
  NewClient T config w
  = Ok (Some (mkClient config n true
                (Some (mkHandle (Url config ++ "/xmlrpc/2/common")))
                (Some (mkHandle (Url config ++ "/xmlrpc/2/object")))),
        None)
       (after_call w login)
  /\ isAuthenticated
       (mkClient config n true
          (Some (mkHandle (Url config ++ "/xmlrpc/2/common")))
          (Some (mkHandle (Url config ++ "/xmlrpc/2/object")))) = true.
Proof.
  intros Hv Hc Ho Hn login Hr. split.
  - unfold NewClient, xmlrpc_NewClient. rewrite Hv, Hc; simpl. rewrite Ho; simpl.
    unfold Authenticate, commonCall, call, bind, getArgs, isAuthenticated; simpl.
    fold login. rewrite Hr. reflexivity.
  - unfold isAuthenticated; simpl. apply Z.eqb_neq in Hn. now rewrite Hn.
Qed.

Lemma NewClient_opens_session_witness :
  NewClient seeded_server test_config quiet
  = Ok (Some logged_client, None) (after_call quiet test_login)
  /\ isAuthenticated logged_client = true.
Proof.
  apply (NewClient_opens_session seeded_server test_config quiet 2%Z);
    try reflexivity.
  discriminate.
Defined.

(** X4: whenever [NewClient] returns, exactly one of its two results is
    nil: either no client, an error and nothing sent, or a client built on
    the given configuration and a nil error. *)
Theorem NewClient_client_xor_error (T : Transport) (config : ClientConfig)
  (w w' : World) (oc : option Client) (e : option Error) :
  NewClient T config w = Ok (oc, e) w' ->
  (oc = None /\ e <> None /\ w' = w)
  \/ (exists c, oc = Some c /\ e = None /\ cfg c = config).
Proof.
  unfold NewClient, xmlrpc_NewClient.
  destruct (IsValid config).
  - destruct (dial T (Url config ++ "/xmlrpc/2/common")) as [e1|]; simpl.
    + intros [= <- <- <-]. left. repeat split. discriminate.
    + destruct (dial T (Url config ++ "/xmlrpc/2/object")) as [e2|]; simpl.
      * intros [= <- <- <-]. left. repeat split. discriminate.
      * unfold bind.
        destruct (Authenticate T _ w) as [[c1 e1] w1|f w1] eqn:Ha;
          [|discriminate].
        pose proof (Authenticate_error_nil T _ _ _ _ _ Ha) as ->. simpl.
        intros [= <- <- <-]. right. exists c1. repeat split.
        revert Ha. unfold Authenticate, commonCall, call, bind; simpl.
        destruct (respond T w _) as [v inner].
        destruct (negb (iface_eq_const v 0) && is_nil inner).
        -- destruct v; simpl; try discriminate. now intros [= <- _].
        -- now intros [= <- _].
  - intros [= <- <- <-]. left. repeat split. discriminate.
Qed.

Lemma NewClient_client_xor_error_witness :
  (Some logged_client = None /\ @None Error <> None
   /\ after_call quiet test_login = quiet)
  \/ (exists c, Some logged_client = Some c /\ @None Error = None
                /\ cfg c = test_config).
Proof.
  apply (NewClient_client_xor_error seeded_server test_config quiet).
  reflexivity.
Defined.

(** ** Authentication and closing *)

(** What [Authenticate] can do to a client: nothing, or store a uid and
    raise the flag; what it can do to the world: nothing, or send one
    [authenticate] call on the common endpoint. *)
Lemma Authenticate_cases (T : Transport) (c c' : Client) (e : option Error)
  (w w' : World) :
  Authenticate T c w = Ok (c', e) w' ->
  (c' = c \/ exists n, c' = set_session c n true)
  /\ (w' = w
      \/ exists h, common c = Some h
                   /\ w' = after_call w (mkCall h "authenticate" (getArgs c))).
Proof.
  unfold Authenticate, commonCall, call, bind.
  destruct (isAuthenticated c); simpl.
  - intros [= <- _ <-]. split; now left.
  - destruct (common c) as [h|]; [|discriminate].
    destruct (respond T w _) as [v inner].
    destruct (negb (iface_eq_const v 0) && is_nil inner).
    + destruct v; simpl; try discriminate.
      intros [= <- _ <-]. split; [right; eauto | right; eauto].
    + intros [= <- _ <-]. split; [now left | right; eauto].
Qed.

(** X5: on an unauthenticated client, a non-zero [int64] answer n to the
    [authenticate] call opens the session: uid n, flag raised, nil error,
    and exactly that one call sent on the common endpoint. *)
Theorem Authenticate_opens_session (T : Transport) (c : Client) (w : World)
  (h : xmlrpcClient) (n : Z) :
  isAuthenticated c = false -> common c = Some h -> n <> 0%Z ->
  respond T w (mkCall h "authenticate" (getArgs c)) = (VInt64 n, None) ->
  exists c',
    Authenticate T c w
    = Ok (c', None) (after_call w (mkCall h "authenticate" (getArgs c)))
    /\ uid c' = n /\ auth c' = true /\ isAuthenticated c' = true
    /\ cfg c' = cfg c.
Proof.
  intros Hc Hh Hn Hr.
  destruct (Authenticate_success T c w h n Hc Hh Hn Hr) as [Ha Hi].
  exists (set_session c n true). now rewrite Ha, Hi.
Qed.

Lemma Authenticate_opens_session_witness :
  exists c',
    Authenticate seeded_server fresh_client quiet
    = Ok (c', None)
         (after_call quiet
            (mkCall test_common "authenticate" (getArgs fresh_client)))
    /\ uid c' = 2%Z /\ auth c' = true /\ isAuthenticated c' = true
    /\ cfg c' = cfg fresh_client.
Proof.
  apply (Authenticate_opens_session seeded_server fresh_client quiet
           test_common 2%Z); try reflexivity.
  discriminate.
Defined.

(** X6: on an unauthenticated client, an answer that comes without error
    and is neither an [int64] nor the [int] zero (the [false] by which the
    server rejects credentials, a string, nil) makes [Authenticate] panic on
    its type assertion, after the call was sent. *)
Theorem Authenticate_panics_on_foreign_answer (T : Transport) (c : Client)
  (w : World) (h : xmlrpcClient) (v : Value) :
  isAuthenticated c = false -> common c = Some h ->
  respond T w (mkCall h "authenticate" (getArgs c)) = (v, None) ->
  (forall n, v <> VInt64 n) -> v <> VInt 0 ->
  Authenticate T c w
  = Panic TypeAssertion (after_call w (mkCall h "authenticate" (getArgs c))).
Proof.
  intros Hc Hh Hr H64 H0.
  unfold Authenticate, commonCall, call, bind. rewrite Hc, Hh; simpl.
  rewrite Hr.
  destruct v as [ | k | k | | | | | | | ]; try reflexivity.
  - simpl. destruct (Z.eqb_spec k 0) as [-> | Hk]; [now destruct H0 | reflexivity].
  - now destruct (H64 k).
Qed.

Lemma Authenticate_panics_on_foreign_answer_witness :
  Authenticate rejecting_server fresh_client quiet
  = Panic TypeAssertion
      (after_call quiet
         (mkCall test_common "authenticate" (getArgs fresh_client))).
Proof.
  apply (Authenticate_panics_on_foreign_answer rejecting_server fresh_client
           quiet test_common (VBool false)); try reflexivity.
  - intros n; discriminate.
  - discriminate.
Defined.

(** X7: whenever [Authenticate] returns, the configuration and the two
    handles of the client are the ones it had, no handle was closed, and at
    most one call was sent: an [authenticate] on the client's common
    endpoint, never one on the object endpoint. *)
Theorem Authenticate_frame (T : Transport) (c c' : Client)
  (e : option Error) (w w' : World) :
  Authenticate T c w = Ok (c', e) w' ->
  cfg c' = cfg c /\ common c' = common c /\ object c' = object c
  /\ closed w' = closed w
  /\ (sent w' = sent w
      \/ exists h, common c = Some h
                   /\ sent w' = sent w ++ [mkCall h "authenticate" (getArgs c)]).
Proof.
  intros H. destruct (Authenticate_cases T c c' e w w' H) as [Hc Hw].
  assert (Hfields : cfg c' = cfg c /\ common c' = common c
                    /\ object c' = object c).
  { destruct Hc as [-> | (n & ->)]; repeat split. }
  destruct Hfields as (H1 & H2 & H3).
  repeat (split; [assumption|]).
  destruct Hw as [-> | (h & Hh & ->)].
  - split; [reflexivity | now left].
  - split; [reflexivity | right; eauto].
Qed.

Lemma Authenticate_frame_witness :
  cfg fresh_client = cfg fresh_client
  /\ common fresh_client = common fresh_client
  /\ object fresh_client = object fresh_client
  /\ closed (after_call quiet test_login) = closed quiet
  /\ (sent (after_call quiet test_login) = sent quiet
      \/ exists h, common fresh_client = Some h
                   /\ sent (after_call quiet test_login)
                      = sent quiet
                        ++ [mkCall h "authenticate" (getArgs fresh_client)]).
Proof.
  apply (Authenticate_frame unreachable fresh_client fresh_client None quiet).
  reflexivity.
Defined.

(** X8: when closing the common handle reports an error, [Close] returns
    that error and does not close the object handle; the session is reset
    all the same. *)
Theorem Close_stops_at_first_error (T : Transport) (c : Client) (w : World)
  (h : xmlrpcClient) (e : Error) :
  common c = Some h -> hangup T w h = Some e ->
  Close T c w
  = Ok (set_session c 0%Z false, Some e) (mkWorld (sent w) (closed w ++ [h])).
Proof.
  intros Hh He. unfold Close, bind, xmlrpc_Close; simpl.
  rewrite Hh; simpl. rewrite He; reflexivity.
Qed.

Lemma Close_stops_at_first_error_witness :
  Close sticky_server logged_client quiet
  = Ok (set_session logged_client 0%Z false,
        Some (TransportError "connection is shut down"))
       (mkWorld [] [test_common]).
Proof.
  apply (Close_stops_at_first_error sticky_server logged_client quiet
           test_common); reflexivity.
Defined.

(** X9: when the common handle closes without error, [Close] goes on to
    close the object handle, in that order, and returns what that second
    close reports. *)
Theorem Close_closes_both (T : Transport) (c : Client) (w : World)
  (h1 h2 : xmlrpcClient) :
  common c = Some h1 -> object c = Some h2 -> hangup T w h1 = None ->
  Close T c w
  = Ok (set_session c 0%Z false,
        hangup T (mkWorld (sent w) (closed w ++ [h1])) h2)
       (mkWorld (sent w) (closed w ++ [h1; h2])).
Proof.
  intros H1 H2 He. unfold Close, bind, xmlrpc_Close; simpl.
  rewrite H1; simpl. rewrite He; simpl. rewrite H2; simpl.
  unfold ret. now rewrite <- app_assoc.
Qed.

Lemma Close_closes_both_witness :
  Close seeded_server logged_client quiet
  = Ok (set_session logged_client 0%Z false, None)
       (mkWorld [] [test_common; test_object]).
Proof.
  apply (Close_closes_both seeded_server logged_client quiet
           test_common test_object); reflexivity.
Defined.

(** X10: [Close] sends no call, and a second [Close] leaves the client as
    the first one left it. *)
Theorem Close_twice (T : Transport) (c c1 c2 : Client)
  (e1 e2 : option Error) (w w1 w2 : World) :
  Close T c w = Ok (c1, e1) w1 -> Close T c1 w1 = Ok (c2, e2) w2 ->
  c2 = c1 /\ sent w1 = sent w /\ sent w2 = sent w.
Proof.
  intros Ha Hb.
  pose proof (Close_inv T _ _ _ _ _ Ha) as ->.
  pose proof (Close_inv T _ _ _ _ _ Hb) as ->.
  pose proof (Close_sent T _ _ _ _ _ Ha) as Hs1.
  pose proof (Close_sent T _ _ _ _ _ Hb) as Hs2.
  repeat split; congruence.
Qed.

Lemma Close_twice_witness :
  set_session logged_client 0%Z false = set_session logged_client 0%Z false
  /\ sent (mkWorld [] [test_common; test_object]) = sent quiet
  /\ sent (mkWorld [] [test_common; test_object; test_common; test_object])
     = sent quiet.
Proof.
  apply (Close_twice seeded_server logged_client
           (set_session logged_client 0%Z false)
           (set_session logged_client 0%Z false) None None quiet
           (mkWorld [] [test_common; test_object])
           (mkWorld [] [test_common; test_object; test_common; test_object]));
    reflexivity.
Defined.

(** ** Clients obtained through the package *)

(** The shape of a client obtained through the package, by induction on
    how it was obtained. *)
Lemma Reachable_shape (T : Transport) (c : Client) :
  Reachable T c ->
  IsValid (cfg c) = true
  /\ common c = Some (mkHandle (Url (cfg c) ++ "/xmlrpc/2/common"))
  /\ object c = Some (mkHandle (Url (cfg c) ++ "/xmlrpc/2/object"))
  /\ (uid c <> 0%Z -> auth c = true).
Proof.
  induction 1 as [config w c e w' Hnew
                 | c w c' e w' Hr IH Ha
                 | c w c' e w' Hr IH Hc].
  - revert Hnew. unfold NewClient, xmlrpc_NewClient.
    destruct (IsValid config) eqn:Hv; [|discriminate].
    destruct (dial T (Url config ++ "/xmlrpc/2/common")); simpl; [discriminate|].
    destruct (dial T (Url config ++ "/xmlrpc/2/object")); simpl; [discriminate|].
    unfold bind.
    destruct (Authenticate T _ w) as [[c1 e1] w1|f w1] eqn:Ha; [|discriminate].
    destruct (Authenticate_cases T _ _ _ _ _ Ha) as [Hc _].
    destruct (negb (is_nil e1)); intros [= <- _ _].
    destruct Hc as [-> | (n & ->)]; simpl; repeat split; auto;
      intros H0; now destruct H0.
  - destruct IH as (Hv & H1 & H2 & Hu).
    destruct (Authenticate_cases T _ _ _ _ _ Ha) as [[-> | (n & ->)] _];
      simpl; repeat split; auto.
  - destruct IH as (Hv & H1 & H2 & Hu).
    rewrite (Close_inv T _ _ _ _ _ Hc); simpl; repeat split; auto;
      intros H0; now destruct H0.
Qed.

(** X11: every client obtained from [NewClient], after any number of
    [Authenticate] and [Close], has a valid configuration, both handles
    non-nil and opened on [Url/xmlrpc/2/common] and [Url/xmlrpc/2/object],
    and a non-zero uid only together with a raised flag. *)
Theorem Reachable_invariant (T : Transport) (c : Client) :
  Reachable T c ->
  IsValid (cfg c) = true
  /\ common c = Some (mkHandle (Url (cfg c) ++ "/xmlrpc/2/common"))
  /\ object c = Some (mkHandle (Url (cfg c) ++ "/xmlrpc/2/object"))
  /\ (uid c <> 0%Z -> auth c = true).
Proof. exact (Reachable_shape T c). Qed.

Lemma Reachable_invariant_witness :
  IsValid (cfg logged_client) = true
  /\ common logged_client
     = Some (mkHandle (Url (cfg logged_client) ++ "/xmlrpc/2/common"))
  /\ object logged_client
     = Some (mkHandle (Url (cfg logged_client) ++ "/xmlrpc/2/object"))
  /\ (uid logged_client <> 0%Z -> auth logged_client = true).
Proof.
  apply (Reachable_invariant seeded_server logged_client).
  apply (reach_new seeded_server test_config quiet logged_client None
           (after_call quiet test_login)).
  reflexivity.
Defined.

(** X12: a client obtained from [NewClient], after any [Authenticate] and
    [Close], has a non-nil object handle, so [ExecuteKw], [Read] and
    [SearchRead] never call through a nil handle: the nil-dereference panic
    of [call] cannot occur, whatever the arguments and however many contexts
    are passed.  What the library's [Call] does with the arguments it is
    handed is the transport's part and is not stated here. *)
Theorem ExecuteKw_no_nil_handle (T : Transport) (c : Client)
  (method model : string) (args : Args) (ids : list Z) (domain : Domain)
  (fields : list string) (context : list Context) (w : World) :
  Reachable T c ->
  (exists h, object c = Some h)
  /\ (forall w', ExecuteKw T c method model args context w
                 <> Panic NilDereference w')
  /\ (forall w', Read T c model ids fields context w
                 <> Panic NilDereference w')
  /\ (forall w', SearchRead T c model domain fields context w
                 <> Panic NilDereference w').
Proof.
  intros Hr. destruct (Reachable_shape T c Hr) as (_ & _ & Ho & _).
  assert (H : forall m a w',
            ExecuteKw T c m model a context w <> Panic NilDereference w').
  { intros m a w'. unfold ExecuteKw, objectCall, call. rewrite Ho.
    destruct context as [|x [|y rest]]; simpl;
      destruct (isAuthenticated c); simpl; discriminate. }
  split; [eauto | split; [apply H | split; intros w'; apply H]].
Qed.

Lemma ExecuteKw_no_nil_handle_witness :
  (exists h, object logged_client = Some h)
  /\ (forall w', ExecuteKw seeded_server logged_client "read" "res.users"
                   [VInt64s [2%Z]] [] quiet <> Panic NilDereference w')
  /\ (forall w', Read seeded_server logged_client "res.users" [2%Z] [] []
                   quiet <> Panic NilDereference w')
  /\ (forall w', SearchRead seeded_server logged_client "res.users" [] [] []
                   quiet <> Panic NilDereference w').
Proof.
  apply (ExecuteKw_no_nil_handle seeded_server logged_client).
  apply (reach_new seeded_server test_config quiet logged_client None
           (after_call quiet test_login)).
  reflexivity.
Defined.

(** ** What goes on the wire *)

Lemma coerce_ids_world (rs : list Value) (w : World) :
  outcome_world (coerce_ids rs w) = w.
Proof.
  induction rs as [|r rs IH]; simpl; [reflexivity|].
  destruct r; try reflexivity.
  unfold bind at 1; simpl. unfold bind at 1.
  destruct (coerce_ids rs w) as [ns w1|f w1]; simpl in *; exact IH.
Qed.

(** X13: an authenticated client with at most one context sends exactly
    one call, [execute_kw] on the object endpoint, whose positional
    arguments are db, uid, password, the model, the method (model first,
    though the method is the first parameter of [ExecuteKw]), the arguments
    as ONE list, then the context if there is one; what the transport
    answers, value and error, is returned as it is. *)
Theorem ExecuteKw_wire_format (T : Transport) (c : Client)
  (method model : string) (args : Args) (context : list Context)
  (w : World) (h : xmlrpcClient) :
  isAuthenticated c = true -> object c = Some h ->
  (List.length context <= 1)%nat ->
  let q := mkCall h "execute_kw"
             ([VString (Db (cfg c)); VInt64 (uid c); VString (Password (cfg c));
               VString model; VString method; VSlice TArgs args]
              ++ map VMap context) in
  ExecuteKw T c method model args context w
  = Ok (respond T w q) (after_call w q).
Proof.
  intros Hc Hh Hn q.
  pose proof (ExecuteKw_dispatch T c method model args context w h Hc Hh Hn)
    as H.
  unfold getArgs in H. rewrite Hc in H. exact H.
Qed.

Lemma ExecuteKw_wire_format_witness :
  ExecuteKw seeded_server logged_client "name_get" "res.users"
    [VInt64s [2%Z]] [[("lang", VString "en_US")]] quiet
  = Ok (VSlice TInterfaces [VInt64 7; VInt64 8; VInt64 9], None)
       (after_call quiet
          (mkCall test_object "execute_kw"
             [VString "test"; VInt64 2; VString "admin"; VString "res.users";
              VString "name_get"; VSlice TArgs [VInt64s [2%Z]];
              VMap [("lang", VString "en_US")]])).
Proof.
  apply (ExecuteKw_wire_format seeded_server logged_client "name_get"
           "res.users" [VInt64s [2%Z]] [[("lang", VString "en_US")]] quiet
           test_object).
  - reflexivity.
  - reflexivity.
  - simpl; lia.
Defined.

(** X14: whenever [ExecuteKw] returns, no handle was closed and either
    nothing was sent, or the client is authenticated and the one call sent
    is an [execute_kw] on its object endpoint: it never uses the common
    endpoint and never sends for an unauthenticated client. *)
Theorem ExecuteKw_sends_at_most_once (T : Transport) (c : Client)
  (method model : string) (args : Args) (context : list Context)
  (w w' : World) (r : Value * option Error) :
  ExecuteKw T c method model args context w = Ok r w' ->
  closed w' = closed w
  /\ (w' = w
      \/ (isAuthenticated c = true
          /\ exists h params,
               object c = Some h
               /\ sent w' = sent w ++ [mkCall h "execute_kw" params])).
Proof.
  unfold ExecuteKw, objectCall, call.
  assert (Hcall : forall params,
            match object c with
            | Some x =>
                Ok (respond T w (mkCall x "execute_kw" params))
                   (mkWorld (sent w ++ [mkCall x "execute_kw" params]) (closed w))
            | None => Panic NilDereference w
            end = Ok r w' ->
            closed w' = closed w
            /\ (w' = w
                \/ (true = true
                    /\ exists h params,
                         object c = Some h
                         /\ sent w' = sent w ++ [mkCall h "execute_kw" params]))).
  { intros params. destruct (object c) as [h|]; [|discriminate].
    intros [= _ <-]. split; [reflexivity|].
    right; split; [reflexivity|]. exists h, params. now split. }
  destruct context as [|x [|y rest]]; simpl;
    destruct (isAuthenticated c); simpl;
    solve [ apply Hcall
          | intros [= _ <-]; split; [reflexivity | now left] ].
Qed.

Lemma ExecuteKw_sends_at_most_once_witness :
  closed quiet = closed quiet
  /\ (quiet = quiet
      \/ (isAuthenticated fresh_client = true
          /\ exists h params,
               object fresh_client = Some h
               /\ sent quiet = sent quiet ++ [mkCall h "execute_kw" params])).
Proof.
  apply (ExecuteKw_sends_at_most_once seeded_server fresh_client "read"
           "res.users" [] [] quiet quiet
           (VNil, Some (ClientAuthError test_config))).
  reflexivity.
Defined.

(** X15: [Read] passes the ids alone when the list of fields is empty, and
    the ids followed by the fields otherwise. *)
Theorem Read_wire_format (T : Transport) (c : Client) (model : string)
  (ids : list Z) (fields : list string) (context : list Context)
  (w : World) (h : xmlrpcClient) :
  isAuthenticated c = true -> object c = Some h ->
  (List.length context <= 1)%nat ->
  let args := match fields with
              | [] => [VInt64s ids]
              | _ :: _ => [VInt64s ids; VStrings fields]
              end in
  let q := mkCall h "execute_kw"
             (getArgs c ++ [VString model; VString "read"; VSlice TArgs args]
                ++ map VMap context) in
  Read T c model ids fields context w = Ok (respond T w q) (after_call w q).
Proof.
  intros Hc Hh Hn args q. unfold Read.
  destruct fields as [|f fs]; simpl;
    apply (ExecuteKw_dispatch T c "read" model _ context w h Hc Hh Hn).
Qed.

Lemma Read_wire_format_witness :
  Read seeded_server logged_client "res.users" [2%Z] ["login"; "name"] [] quiet
  = Ok (VSlice TInterfaces [VInt64 7; VInt64 8; VInt64 9], None)
       (after_call quiet
          (test_execute_kw "read"
             [VInt64s [2%Z]; VStrings ["login"; "name"]])).
Proof.
  apply (Read_wire_format seeded_server logged_client "res.users" [2%Z]
           ["login"; "name"] [] quiet test_object).
  - reflexivity.
  - reflexivity.
  - simpl; lia.
Defined.

(** The world [Search] leaves behind, returned or panicked. *)
Lemma Search_world (T : Transport) (c : Client) (model : string)
  (domain : Domain) (context : list Context) (w : World) (h : xmlrpcClient) :
  isAuthenticated c = true -> object c = Some h ->
  (List.length context <= 1)%nat ->
  outcome_world (Search T c model domain context w)
  = after_call w
      (mkCall h "execute_kw"
         (getArgs c ++ [VString model; VString "search"; VSlice TArgs domain]
            ++ map VMap context)).
Proof.
  intros Hc Hh Hn. unfold Search. rewrite domain_args_id.
  unfold bind at 1.
  rewrite (ExecuteKw_dispatch T c "search" model domain context w h Hc Hh Hn).
  destruct (respond T w _) as [v [e|]]; simpl; [reflexivity|].
  unfold bind at 1.
  destruct v as [ | | | | | t l | | | | ]; try reflexivity.
  destruct t; try reflexivity. simpl.
  unfold bind at 1.
  pose proof (coerce_ids_world l
    (after_call w
       (mkCall h "execute_kw"
          (getArgs c ++ [VString model; VString "search"; VSlice TArgs domain]
             ++ map VMap context)))) as Hw.
  destruct (coerce_ids l _) as [ns w1|f w1]; simpl in *; exact Hw.
Qed.

(** X16: [Search] spreads the domain: each top-level element of the domain
    becomes one positional argument of the remote [search], in order.  The
    call is sent whether the coercion of the answer succeeds or panics. *)
Theorem Search_spreads_domain (T : Transport) (c : Client) (model : string)
  (domain : Domain) (context : list Context) (w : World) (h : xmlrpcClient) :
  isAuthenticated c = true -> object c = Some h ->
  (List.length context <= 1)%nat ->
  outcome_world (Search T c model domain context w)
  = after_call w
      (mkCall h "execute_kw"
         (getArgs c ++ [VString model; VString "search"; VSlice TArgs domain]
            ++ map VMap context)).
Proof. exact (Search_world T c model domain context w h). Qed.

Lemma Search_spreads_domain_witness :
  outcome_world
    (Search seeded_server logged_client "res.users"
       [VString OpOR; Clause "active" "=" (VInt 1);
        Clause "login" "=" (VString "John")] [] quiet)
  = after_call quiet
      (test_execute_kw "search"
         [VString OpOR; Clause "active" "=" (VInt 1);
          Clause "login" "=" (VString "John")]).
Proof.
  apply (Search_spreads_domain seeded_server logged_client "res.users"
           [VString OpOR; Clause "active" "=" (VInt 1);
            Clause "login" "=" (VString "John")] [] quiet test_object).
  - reflexivity.
  - reflexivity.
  - simpl; lia.
Defined.

(** The calls of the two wrappers that take the domain as one argument. *)
Lemma domain_wrappers_world (T : Transport) (c : Client)
  (model : string) (domain : Domain) (fields : list string)
  (context : list Context) (w : World) (h : xmlrpcClient) :
  isAuthenticated c = true -> object c = Some h ->
  (List.length context <= 1)%nat ->
  let call_of method args :=
    mkCall h "execute_kw"
      (getArgs c ++ [VString model; VString method; VSlice TArgs args]
         ++ map VMap context) in
  outcome_world (SearchCount T c model domain context w)
  = after_call w (call_of "search_count" [VSlice TDomain domain])
  /\ SearchRead T c model domain fields context w
     = let q := call_of "search_read"
                  (match fields with
                   | [] => [VSlice TDomain domain]
                   | _ :: _ => [VSlice TDomain domain; VStrings fields]
                   end) in
       Ok (respond T w q) (after_call w q).
Proof.
  intros Hc Hh Hn call_of. split.
  - unfold SearchCount. unfold bind at 1.
    rewrite (ExecuteKw_dispatch T c "search_count" model _ context w h Hc Hh Hn).
    destruct (respond T w _) as [v [e|]]; simpl; [reflexivity|].
    unfold bind at 1. destruct v; reflexivity.
  - unfold SearchRead.
    destruct fields as [|f fs]; simpl;
      apply (ExecuteKw_dispatch T c "search_read" model _ context w h Hc Hh Hn).
Qed.

(** X17: [SearchCount] and [SearchRead] pass the domain whole, as ONE
    positional argument of type Domain ([SearchRead] followed by the fields
    when there are any). *)
Theorem SearchCount_SearchRead_pass_domain_whole (T : Transport) (c : Client)
  (model : string) (domain : Domain) (fields : list string)
  (context : list Context) (w : World) (h : xmlrpcClient) :
  isAuthenticated c = true -> object c = Some h ->
  (List.length context <= 1)%nat ->
  let call_of method args :=
    mkCall h "execute_kw"
      (getArgs c ++ [VString model; VString method; VSlice TArgs args]
         ++ map VMap context) in
  outcome_world (SearchCount T c model domain context w)
  = after_call w (call_of "search_count" [VSlice TDomain domain])
  /\ SearchRead T c model domain fields context w
     = let q := call_of "search_read"
                  (match fields with
                   | [] => [VSlice TDomain domain]
                   | _ :: _ => [VSlice TDomain domain; VStrings fields]
                   end) in
       Ok (respond T w q) (after_call w q).
Proof. exact (domain_wrappers_world T c model domain fields context w h). Qed.

Lemma SearchCount_SearchRead_pass_domain_whole_witness :
  outcome_world
    (SearchCount seeded_server logged_client "res.users"
       [Clause "active" "=" (VInt 1)] [] quiet)
  = after_call quiet
      (test_execute_kw "search_count"
         [VSlice TDomain [Clause "active" "=" (VInt 1)]])
  /\ SearchRead seeded_server logged_client "res.users"
       [Clause "active" "=" (VInt 1)] ["login"] [] quiet
     = Ok (VSlice TInterfaces [VInt64 7; VInt64 8; VInt64 9], None)
          (after_call quiet
             (test_execute_kw "search_read"
                [VSlice TDomain [Clause "active" "=" (VInt 1)];
                 VStrings ["login"]])).
Proof.
  apply (SearchCount_SearchRead_pass_domain_whole seeded_server logged_client
           "res.users" [Clause "active" "=" (VInt 1)] ["login"] [] quiet
           test_object).
  - reflexivity.
  - reflexivity.
  - simpl; lia.
Defined.

(** X18: for a domain built by [NewDomain] from e1..en, [Search] sends the
    list of those expressions as the single argument of [search], while
    [SearchCount] sends a Domain whose only element is that list: one level
    deeper. *)
Theorem NewDomain_nesting_on_the_wire (T : Transport) (c : Client)
  (model : string) (es : list Value) (w : World) (h : xmlrpcClient) :
  isAuthenticated c = true -> object c = Some h ->
  outcome_world (Search T c model (NewDomain es) [] w)
  = after_call w
      (mkCall h "execute_kw"
         (getArgs c ++ [VString model; VString "search";
                        VSlice TArgs [VSlice TInterfaces es]]))
  /\ outcome_world (SearchCount T c model (NewDomain es) [] w)
     = after_call w
         (mkCall h "execute_kw"
            (getArgs c ++ [VString model; VString "search_count";
                           VSlice TArgs
                             [VSlice TDomain [VSlice TInterfaces es]]])).
Proof.
  intros Hc Hh.
  assert (Hn : (List.length (@nil Context) <= 1)%nat) by (simpl; lia).
  split.
  - rewrite (Search_world T c model (NewDomain es) [] w h Hc Hh Hn).
    simpl. rewrite ?app_nil_r. reflexivity.
  - destruct (domain_wrappers_world T c model
                (NewDomain es) [] [] w h Hc Hh Hn) as [H _].
    rewrite H. simpl. rewrite ?app_nil_r. reflexivity.
Qed.

Lemma NewDomain_nesting_on_the_wire_witness :
  outcome_world
    (Search seeded_server logged_client "res.users"
       (NewDomain [Clause "active" "=" (VInt 1)]) [] quiet)
  = after_call quiet test_search
  /\ outcome_world
       (SearchCount seeded_server logged_client "res.users"
          (NewDomain [Clause "active" "=" (VInt 1)]) [] quiet)
     = after_call quiet
         (test_execute_kw "search_count"
            [VSlice TDomain [VSlice TInterfaces [Clause "active" "=" (VInt 1)]]]).
Proof.
  apply (NewDomain_nesting_on_the_wire seeded_server logged_client "res.users"
           [Clause "active" "=" (VInt 1)] quiet test_object); reflexivity.
Defined.

(** ** Typed wrappers: errors and coercions *)

(** X19: when the underlying [ExecuteKw] returns an error (authentication,
    context or transport), each typed wrapper returns that error with the
    zero value of its result type (0, false, the nil slice) and does not
    look at the response, so it cannot panic on it. *)
Theorem wrappers_return_zero_with_error (T : Transport) (c : Client)
  (model : string) (values : Context) (ids : list Z) (domain : Domain)
  (context : list Context) (w w' : World) (resp : Value) (e : Error) :
  (ExecuteKw T c "create" model [VMap values] context w = Ok (resp, Some e) w' ->
   Create T c model values context w = Ok (0%Z, Some e) w')
  /\ (ExecuteKw T c "write" model [VInt64s ids; VMap values] context w
      = Ok (resp, Some e) w' ->
      Write T c model ids values context w = Ok (false, Some e) w')
  /\ (ExecuteKw T c "unlink" model [VInt64s ids] context w
      = Ok (resp, Some e) w' ->
      Unlink T c model ids context w = Ok (false, Some e) w')
  /\ (ExecuteKw T c "search_count" model [VSlice TDomain domain] context w
      = Ok (resp, Some e) w' ->
      SearchCount T c model domain context w = Ok (0%Z, Some e) w')
  /\ (ExecuteKw T c "search" model (domain_args domain) context w
      = Ok (resp, Some e) w' ->
      Search T c model domain context w = Ok (None, Some e) w').
Proof.
  repeat split; intros H;
    unfold Create, Write, Unlink, SearchCount, Search;
    rewrite (bind_ok _ _ _ _ _ H); reflexivity.
Qed.

Lemma wrappers_return_zero_with_error_witness :
  Create unreachable logged_client "res.users" [("name", VString "x")] [] quiet
  = Ok (0%Z, Some (TransportError "connection refused"))
       (after_call quiet
          (test_execute_kw "create" [VMap [("name", VString "x")]]))
  /\ Unlink unreachable logged_client "res.users" [5%Z] [] quiet
     = Ok (false, Some (TransportError "connection refused"))
          (after_call quiet (test_execute_kw "unlink" [VInt64s [5%Z]]))
  /\ Search unreachable logged_client "res.users" [] [] quiet
     = Ok (None, Some (TransportError "connection refused"))
          (after_call quiet (test_execute_kw "search" [])).
Proof.
  split; [|split].
  - apply (proj1 (wrappers_return_zero_with_error unreachable logged_client
             "res.users" [("name", VString "x")] [] [] [] quiet
             (after_call quiet
                (test_execute_kw "create" [VMap [("name", VString "x")]]))
             VNil (TransportError "connection refused"))).
    reflexivity.
  - apply (proj1 (proj2 (proj2 (wrappers_return_zero_with_error unreachable
             logged_client "res.users" [] [5%Z] [] [] quiet
             (after_call quiet (test_execute_kw "unlink" [VInt64s [5%Z]]))
             VNil (TransportError "connection refused"))))).
    reflexivity.
  - apply (proj2 (proj2 (proj2 (proj2 (wrappers_return_zero_with_error
             unreachable logged_client "res.users" [] [] [] [] quiet
             (after_call quiet (test_execute_kw "search" []))
             VNil (TransportError "connection refused")))))).
    reflexivity.
Defined.

(** X20: when the [create] call succeeds, [Create] returns the [int64] of
    the response with a nil error; a response of any other dynamic type
    (nil, a bool, an [int], a list) makes it panic on the type assertion. *)
Theorem Create_coercion (T : Transport) (c : Client) (model : string)
  (values : Context) (context : list Context) (w w' : World) (resp : Value) :
  ExecuteKw T c "create" model [VMap values] context w = Ok (resp, None) w' ->
  (forall n, resp = VInt64 n ->
     Create T c model values context w = Ok (n, None) w')
  /\ ((forall n, resp <> VInt64 n) ->
      Create T c model values context w = Panic TypeAssertion w').
Proof.
  intros H. unfold Create. rewrite (bind_ok _ _ _ _ _ H); simpl. split.
  - intros n ->. reflexivity.
  - intros Hno. destruct resp as [ | | n | | | | | | | ]; try reflexivity.
    now destruct (Hno n).
Qed.

Lemma Create_coercion_witness :
  Create (answering (VInt64 42) None None) logged_client "ir.logging"
    [("name", VString "go-test")] [] quiet
  = Ok (42%Z, None)
       (after_call quiet
          (mkCall test_object "execute_kw"
             [VString "test"; VInt64 2; VString "admin"; VString "ir.logging";
              VString "create"; VSlice TArgs [VMap [("name", VString "go-test")]]])).
Proof.
  refine (proj1 (Create_coercion (answering (VInt64 42) None None)
            logged_client "ir.logging" [("name", VString "go-test")] [] quiet
            _ (VInt64 42) _) 42%Z _); reflexivity.
Defined.

(** X21: when the [search_count] call succeeds, [SearchCount] returns the
    [int64] of the response with a nil error; a response of any other
    dynamic type makes it panic on the type assertion. *)
Theorem SearchCount_coercion (T : Transport) (c : Client) (model : string)
  (domain : Domain) (context : list Context) (w w' : World) (resp : Value) :
  ExecuteKw T c "search_count" model [VSlice TDomain domain] context w
    = Ok (resp, None) w' ->
  (forall n, resp = VInt64 n ->
     SearchCount T c model domain context w = Ok (n, None) w')
  /\ ((forall n, resp <> VInt64 n) ->
      SearchCount T c model domain context w = Panic TypeAssertion w').
Proof.
  intros H. unfold SearchCount. rewrite (bind_ok _ _ _ _ _ H); simpl. split.
  - intros n ->. reflexivity.
  - intros Hno. destruct resp as [ | | n | | | | | | | ]; try reflexivity.
    now destruct (Hno n).
Qed.

Lemma SearchCount_coercion_witness :
  SearchCount seeded_server logged_client "res.users" [] [] quiet
  = Panic TypeAssertion
      (after_call quiet (test_execute_kw "search_count" [VSlice TDomain []])).
Proof.
  refine (proj2 (SearchCount_coercion seeded_server logged_client "res.users"
            [] [] quiet _
            (VSlice TInterfaces [VInt64 7; VInt64 8; VInt64 9]) _) _).
  - reflexivity.
  - intros n; discriminate.
Defined.

(** X22: when the [write] call succeeds, [Write] returns the [bool] of the
    response with a nil error; a response of any other dynamic type makes it
    panic on the type assertion. *)
Theorem Write_coercion (T : Transport) (c : Client) (model : string)
  (ids : list Z) (values : Context) (context : list Context)
  (w w' : World) (resp : Value) :
  ExecuteKw T c "write" model [VInt64s ids; VMap values] context w
    = Ok (resp, None) w' ->
  (forall b, resp = VBool b ->
     Write T c model ids values context w = Ok (b, None) w')
  /\ ((forall b, resp <> VBool b) ->
      Write T c model ids values context w = Panic TypeAssertion w').
Proof.
  intros H. unfold Write. rewrite (bind_ok _ _ _ _ _ H); simpl. split.
  - intros b ->. reflexivity.
  - intros Hno. destruct resp as [ | | | b | | | | | | ]; try reflexivity.
    now destruct (Hno b).
Qed.

Lemma Write_coercion_witness :
  Write (answering (VBool true) None None) logged_client "res.users" [2%Z]
    [("signature", VString "Test")] [] quiet
  = Ok (true, None)
       (after_call quiet
          (test_execute_kw "write"
             [VInt64s [2%Z]; VMap [("signature", VString "Test")]])).
Proof.
  refine (proj1 (Write_coercion (answering (VBool true) None None)
            logged_client "res.users" [2%Z] [("signature", VString "Test")]
            [] quiet _ (VBool true) _) true _); reflexivity.
Defined.

(** X23: when the [unlink] call succeeds, [Unlink] returns the [bool] of
    the response with a nil error; a response of any other dynamic type
    makes it panic on the type assertion. *)
Theorem Unlink_coercion (T : Transport) (c : Client) (model : string)
  (ids : list Z) (context : list Context) (w w' : World) (resp : Value) :
  ExecuteKw T c "unlink" model [VInt64s ids] context w = Ok (resp, None) w' ->
  (forall b, resp = VBool b ->
     Unlink T c model ids context w = Ok (b, None) w')
  /\ ((forall b, resp <> VBool b) ->
      Unlink T c model ids context w = Panic TypeAssertion w').
Proof.
  intros H. unfold Unlink. rewrite (bind_ok _ _ _ _ _ H); simpl. split.
  - intros b ->. reflexivity.
  - intros Hno. destruct resp as [ | | | b | | | | | | ]; try reflexivity.
    now destruct (Hno b).
Qed.

Lemma Unlink_coercion_witness :
  Unlink (answering (VBool false) None None) logged_client "ir.logging"
    [42%Z] [] quiet
  = Ok (false, None)
       (after_call quiet
          (mkCall test_object "execute_kw"
             [VString "test"; VInt64 2; VString "admin"; VString "ir.logging";
              VString "unlink"; VSlice TArgs [VInt64s [42%Z]]])).
Proof.
  refine (proj1 (Unlink_coercion (answering (VBool false) None None)
            logged_client "ir.logging" [42%Z] [] quiet _ (VBool false) _)
            false _); reflexivity.
Defined.
